(** * cdv sim: the command surface of the Chia simulator (cdv/cmds/sim.py)

    A shallow embedding of the click command group [sim] and of its
    subcommands.  Each command is a computation in a small monad [M] that
    threads the terminal input and the state of the collaborators, records
    what the command prints, prompts and calls, and ends by returning, by
    [sys.exit] or by an exception.  The collaborators of the module
    (cdv.cmds.sim_utils, chia.util.config, chia.cmds.stop, pathlib) are not
    part of the file: they are an interface, [Collaborators].  The trace of a
    command holds what the module itself prints, asks and calls; what a
    collaborator prints or asks happens inside its call. *)

From Stdlib Require Import ZArith Lia Ascii.
From stdpp Require Import base strings list gmap pretty.

Local Open Scope Z_scope.
Local Open Scope string_scope.

(** ** Python values that reach the commands *)

Inductive pyval (path object : Type) : Type :=
| PyNone
| PyBool (b : bool)
| PyInt (n : Z)
| PyStr (s : string)
| PyPath (p : path)
| PyObj (o : object).

Arguments PyNone {path object}.
Arguments PyBool {path object} b.
Arguments PyInt {path object} n.
Arguments PyStr {path object} s.
Arguments PyPath {path object} p.
Arguments PyObj {path object} o.

(** The functions handed to [execute_with_simulator]. *)
Inductive sim_function : Type :=
| print_status
| revert_block_height
| farm_blocks
| set_auto_farm.

#[global] Instance sim_function_eq_dec : EqDecision sim_function.
Proof. solve_decision. Defined.

(** One constructor per collaborator function the module calls, with the
    arguments of the call. *)
Inductive call (path object : Type) : Type :=
| call_async_config_wizard
    (root_path : pyval path object) (fingerprint : option Z)
    (reward_address plot_directory mnemonic : option string)
    (auto_farm : option bool) (docker_mode use_bitfield : bool)
| call_start_async
    (root_path : pyval path object) (group : list string) (restart : bool)
| call_load_config (root_path : pyval path object) (filename : string)
| call_async_stop
    (root_path config : pyval path object) (group : list string)
    (stop_daemon : bool)
| call_execute_with_simulator
    (rpc_port root_path : pyval path object) (function : sim_function)
    (must_be_running : bool) (args : list (pyval path object)).

Arguments call_async_config_wizard {path object}.
Arguments call_start_async {path object}.
Arguments call_load_config {path object}.
Arguments call_async_stop {path object}.
Arguments call_execute_with_simulator {path object}.

(** What a command does that can be observed, in program order. *)
Inductive event (path object : Type) : Type :=
| Printed (text : string)
| Prompted (prompt : string)
| Called (c : call path object).

Arguments Printed {path object} text.
Arguments Prompted {path object} prompt.
Arguments Called {path object} c.

(** ** How a computation ends *)

Inductive exn : Type :=
| KeyError (key : string)
| TypeError
| EOFError
| CollaboratorError (name : string).

Inductive completion (A : Type) : Type :=
| Returned (a : A)
| SystemExit (status : Z)
| Raised (e : exn).

Arguments Returned {A} a.
Arguments SystemExit {A} status.
Arguments Raised {A} e.

(** What is left of the integer given to [sys.exit] as the exit status of
    the process (POSIX, 64-bit C long): its low eight bits, and 255 for an
    integer beyond a C long, for which the interpreter exits with -1. *)
Definition exit_byte (status : Z) : Z :=
  if Z.leb (- 2 ^ 63) status && Z.ltb status (2 ^ 63)
  then status mod 256
  else 255.

(** The exit status of the process: 0 when the command callback returns,
    what is left of the status given to [sys.exit], 1 for an exception that
    escapes. *)
Definition process_exit_code {A} (c : completion A) : Z :=
  match c with
  | Returned _ => 0
  | SystemExit status => exit_byte status
  | Raised _ => 1
  end.

(** A command returns [None] whatever the collaborator it awaited returned;
    an exit or an exception of the collaborator goes through. *)
Definition discard {A} (c : completion A) : completion unit :=
  match c with
  | Returned _ => Returned tt
  | SystemExit status => SystemExit status
  | Raised e => Raised e
  end.

(** ** The collaborators *)

Class Collaborators : Type := {
  path : Type;
  object : Type;
  ExtState : Type;
  (* cdv.cmds.sim_utils.SIMULATOR_ROOT_PATH, as click hands it over *)
  SIMULATOR_ROOT_PATH : string;
  (* pathlib: Path(s), p / s and str(p) *)
  Path : string -> path;
  joinpath : path -> string -> path;
  path_str : path -> string;
  object_str : object -> string;
  (* running a collaborator function on the state outside this module *)
  collaborate :
    call path object -> ExtState -> completion (pyval path object) * ExtState;
  (* running an interactive collaborator function (the provisioning wizard),
     which also reads lines the user types: its completion, the lines it
     left and the new outside state *)
  converse :
    call path object -> list string -> ExtState ->
    completion (pyval path object) * list string * ExtState
}.

Section Commands.
Context `{Collaborators}.

Local Abbreviation value := (pyval path object).
Local Abbreviation trace := (list (event path object)).

(** [str(v)], as an f-string applies it. *)
Definition py_str (v : value) : string :=
  match v with
  | PyNone => "None"
  | PyBool b => if b then "True" else "False"
  | PyInt n => pretty n
  | PyStr s => s
  | PyPath p => path_str p
  | PyObj o => object_str o
  end.

(** Truth value testing of an [Optional[int]] and of an [Optional[str]]. *)
Definition truthy_int (v : option Z) : bool :=
  match v with
  | None => false
  | Some n => negb (Z.eqb n 0)
  end.

Definition truthy_str (v : option string) : bool :=
  match v with
  | None => false
  | Some s => negb (String.eqb s "")
  end.

Definition py_optional_int (v : option Z) : value :=
  match v with
  | None => PyNone
  | Some n => PyInt n
  end.

(** The code [sys.exit(v)] gives the process. *)
Definition exit_status (v : value) : Z :=
  match v with
  | PyNone => 0
  | PyInt n => n
  | PyBool b => if b then 1 else 0
  | _ => 1
  end.

(** ** The monad of commands *)

Record World : Type := mkWorld {
  stdin : list string;   (* the lines the user will type *)
  ext : ExtState
}.

Record Result (A : Type) : Type := mkResult {
  outcome : completion A;
  events : trace;
  final : World
}.

Arguments mkResult {A}.
Arguments outcome {A}.
Arguments events {A}.
Arguments final {A}.

Definition M (A : Type) : Type := World -> Result A.

Definition ret {A} (a : A) : M A :=
  fun w => mkResult (Returned a) [] w.

Definition bind {A B} (m : M A) (k : A -> M B) : M B :=
  fun w =>
    let r := m w in
    match outcome r with
    | Returned a =>
        let r' := k a (final r) in
        mkResult (outcome r') (events r ++ events r') (final r')
    | SystemExit status => mkResult (SystemExit status) (events r) (final r)
    | Raised e => mkResult (Raised e) (events r) (final r)
    end.

Notation "'let*' x ':=' c 'in' k" := (bind c (fun x => k))
  (at level 10, x pattern, c at level 100, k at level 200).

Definition raise {A} (e : exn) : M A :=
  fun w => mkResult (Raised e) [] w.

(** [print(text)]: the event holds the text, without the newline [print]
    ends it with. *)
Definition print (text : string) : M unit :=
  fun w => mkResult (Returned tt) [Printed text] w.

(** [input(prompt)]: shows the prompt and reads one line; [EOFError] at the
    end of the input. *)
Definition input (prompt : string) : M string :=
  fun w =>
    match stdin w with
    | [] => mkResult (Raised EOFError) [Prompted prompt] w
    | line :: rest =>
        mkResult (Returned line) [Prompted prompt] (mkWorld rest (ext w))
    end.

Definition sys_exit {A} (v : value) : M A :=
  fun w => mkResult (SystemExit (exit_status v)) [] w.

(** A call of a collaborator that does not use the terminal (the lifecycle
    manager, the configuration loader, the RPC harness): logged, then run on
    the outside state. *)
Definition invoke (c : call path object) : M value :=
  fun w =>
    let '(r, s) := collaborate c (ext w) in
    mkResult r [Called c] (mkWorld (stdin w) s).

(** A call of an interactive collaborator: logged, then run on the lines the
    user types and on the outside state. *)
Definition invoke_interactive (c : call path object) : M value :=
  fun w =>
    let '(r, typed, s) := converse c (stdin w) (ext w) in
    mkResult r [Called c] (mkWorld typed s).

Definition async_config_wizard root_path fingerprint reward_address
    plot_directory mnemonic auto_farm docker_mode use_bitfield : M value :=
  invoke_interactive
    (call_async_config_wizard root_path fingerprint reward_address
       plot_directory mnemonic auto_farm docker_mode use_bitfield).

Definition start_async root_path group restart : M value :=
  invoke (call_start_async root_path group restart).

Definition load_config root_path filename : M value :=
  invoke (call_load_config root_path filename).

Definition async_stop root_path config group stop_daemon : M value :=
  invoke (call_async_stop root_path config group stop_daemon).

Definition execute_with_simulator rpc_port root_path function
    must_be_running args : M value :=
  invoke (call_execute_with_simulator rpc_port root_path function
            must_be_running args).

(** ** click.Context *)

Record click_Context : Type := mkContext {
  obj : option (gmap string value)
}.

(** [ctx.ensure_object(dict)] *)
Definition ensure_object (ctx : click_Context) : click_Context :=
  match obj ctx with
  | Some d => ctx
  | None => mkContext (Some ∅)
  end.

(** [ctx.obj[key] = v] *)
Definition obj_set (ctx : click_Context) (key : string) (v : value)
    : M click_Context :=
  match obj ctx with
  | Some d => ret (mkContext (Some (<[key := v]> d)))
  | None => raise TypeError
  end.

(** [ctx.obj[key]] *)
Definition obj_get (ctx : click_Context) (key : string) : M value :=
  match obj ctx with
  | Some d =>
      match d !! key with
      | Some v => ret v
      | None => raise (KeyError key)
      end
  | None => raise TypeError
  end.

Definition nl : string := String "010"%char "".

(** ** The commands *)

Definition sim_cmd (ctx : click_Context) (rpc_port : option Z)
    (root_path simulator_name : string) : M click_Context :=
  let ctx := ensure_object ctx in
  let* ctx := obj_set ctx "root_path"
                (PyPath (joinpath (Path root_path) simulator_name)) in
  let* ctx := obj_set ctx "sim_name" (PyStr simulator_name) in
  let* ctx := obj_set ctx "rpc_port" (py_optional_int rpc_port) in
  ret ctx.

Definition create_simulator_config (ctx : click_Context)
    (fingerprint : option Z)
    (reward_address plot_directory mnemonic : option string)
    (auto_farm : option bool) (docker_mode no_bitfield : bool) : M unit :=
  let* root_path := obj_get ctx "root_path" in
  let* _ := print ("Using this Directory: " +:+ py_str root_path +:+ nl) in
  if truthy_int fingerprint && truthy_str mnemonic then
    let* _ := print
      "You can't use both a fingerprint and a mnemonic. Please choose one." in
    ret tt
  else
    let* root_path := obj_get ctx "root_path" in
    let* _ := async_config_wizard root_path fingerprint reward_address
                plot_directory mnemonic auto_farm docker_mode
                (negb no_bitfield) in
    ret tt.

Definition start_cmd (ctx : click_Context) (restart wallet : bool) : M unit :=
  let group := ["simulator"] in
  let group := if wallet then (group ++ ["wallet"])%list else group in
  let* root_path := obj_get ctx "root_path" in
  let* _ := start_async root_path group restart in
  ret tt.

Definition stop_cmd (ctx : click_Context) (daemon wallet : bool) : M unit :=
  let* root_path := obj_get ctx "root_path" in
  let* config := load_config root_path "config.yaml" in
  let group := ["simulator"] in
  let group := if wallet then (group ++ ["wallet"])%list else group in
  let* root_path := obj_get ctx "root_path" in
  let* status := async_stop root_path config group daemon in
  sys_exit status.

Definition status_cmd (ctx : click_Context) (fingerprint : option Z)
    (show_key show_coins include_rewards show_addresses : bool) : M unit :=
  let* rpc_port := obj_get ctx "rpc_port" in
  let* root_path := obj_get ctx "root_path" in
  let* _ := execute_with_simulator rpc_port root_path print_status true
              [py_optional_int fingerprint; PyBool show_key;
               PyBool show_coins; PyBool include_rewards;
               PyBool show_addresses] in
  ret tt.

Definition input_str : string :=
  "Are you sure you want to force delete blocks? This should only ever be used in special circumstances,"
  +:+ " and will break all wallets. " +:+ nl
  +:+ "Press 'y' to continue, or any other button to exit: ".

Definition reset_blocks_message : string :=
  nl +:+ "Blocks, '-b' must not be set if all blocks are selected by reset, '-r'. Exiting."
  +:+ nl.

Definition revert_cmd (ctx : click_Context) (blocks new_blocks : Z)
    (reset force disable_prompt : bool) : M unit :=
  let after_prompt : M unit :=
    if reset && negb (Z.eqb blocks 1) then
      let* _ := print reset_blocks_message in
      ret tt
    else
      let* rpc_port := obj_get ctx "rpc_port" in
      let* root_path := obj_get ctx "root_path" in
      let* _ := execute_with_simulator rpc_port root_path revert_block_height
                  true
                  [PyInt blocks; PyInt new_blocks; PyBool reset; PyBool force]
      in
      ret tt
  in
  if force && negb disable_prompt then
    let* answer := input input_str in
    if negb (String.eqb answer "y") then ret tt else after_prompt
  else after_prompt.

Definition farm_cmd (ctx : click_Context) (blocks : Z)
    (non_transaction : bool) (target_address : string) : M unit :=
  let* rpc_port := obj_get ctx "rpc_port" in
  let* root_path := obj_get ctx "root_path" in
  let* _ := execute_with_simulator rpc_port root_path farm_blocks true
              [PyInt blocks; PyBool (negb non_transaction);
               PyStr target_address] in
  ret tt.

Definition autofarm_cmd (ctx : click_Context) (set_autofarm : string)
    : M unit :=
  let autofarm := String.eqb set_autofarm "on" in
  let* rpc_port := obj_get ctx "rpc_port" in
  let* root_path := obj_get ctx "root_path" in
  let* _ := execute_with_simulator rpc_port root_path set_auto_farm true
              [PyBool autofarm] in
  ret tt.

(** ** The command line

    What the click decorators declare: an option that is not on the command
    line is [None] here and takes its declared default; a flag is [false]
    when absent.  The group callback runs first and the subcommand gets the
    context it filled. *)

Record sim_options : Type := mkSimOptions {
  opt_rpc_port : option Z;             (* -p, default None *)
  opt_root_path : option string;       (* --root-path, default SIMULATOR_ROOT_PATH *)
  opt_simulator_name : option string   (* -n, default "main" *)
}.

(** click.Choice(["on", "off"]) *)
Inductive on_off : Type := choice_on | choice_off.

Definition on_off_str (c : on_off) : string :=
  match c with
  | choice_on => "on"
  | choice_off => "off"
  end.

Inductive subcommand : Type :=
| cmd_create (fingerprint : option Z)
    (reward_address plot_directory mnemonic : option string)
    (auto_farm : option bool) (docker_mode no_bitfield : bool)
| cmd_start (restart wallet : bool)
| cmd_stop (daemon wallet : bool)
| cmd_status (fingerprint : option Z)
    (show_key show_coins include_rewards show_addresses : bool)
| cmd_revert (blocks new_blocks : option Z)
    (reset force disable_prompt : bool)
| cmd_farm (blocks : option Z) (non_transaction : bool)
    (target_address : option string)
| cmd_autofarm (set_autofarm : on_off).

Definition sim_group (ctx : click_Context) (o : sim_options)
    : M click_Context :=
  sim_cmd ctx (opt_rpc_port o)
    (default SIMULATOR_ROOT_PATH (opt_root_path o))
    (default "main" (opt_simulator_name o)).

Definition run_subcommand (ctx : click_Context) (sub : subcommand) : M unit :=
  match sub with
  | cmd_create fingerprint reward_address plot_directory mnemonic auto_farm
      docker_mode no_bitfield =>
      create_simulator_config ctx fingerprint reward_address plot_directory
        mnemonic auto_farm docker_mode no_bitfield
  | cmd_start restart wallet => start_cmd ctx restart wallet
  | cmd_stop daemon wallet => stop_cmd ctx daemon wallet
  | cmd_status fingerprint show_key show_coins include_rewards
      show_addresses =>
      status_cmd ctx fingerprint show_key show_coins include_rewards
        show_addresses
  | cmd_revert blocks new_blocks reset force disable_prompt =>
      revert_cmd ctx (default 1 blocks) (default 1 new_blocks) reset force
        disable_prompt
  | cmd_farm blocks non_transaction target_address =>
      farm_cmd ctx (default 1 blocks) non_transaction
        (default "" target_address)
  | cmd_autofarm set_autofarm => autofarm_cmd ctx (on_off_str set_autofarm)
  end.

Definition cli_sim (ctx : click_Context) (o : sim_options)
    (sub : subcommand) : M unit :=
  let* ctx := sim_group ctx o in
  run_subcommand ctx sub.

(** ** The resolved session context *)

(** The dictionary [sim_cmd] leaves on the context. *)
Definition resolved (d : gmap string value) (rpc_port : option Z)
    (root_path simulator_name : string) : gmap string value :=
  <["rpc_port" := py_optional_int rpc_port]>
    (<["sim_name" := PyStr simulator_name]>
       (<["root_path" := PyPath (joinpath (Path root_path) simulator_name)]>
          d)).

(** The context a subcommand of an invocation with the options [o] sees. *)
Definition session (ctx : click_Context) (o : sim_options) : click_Context :=
  mkContext
    (Some (resolved (default ∅ (obj ctx)) (opt_rpc_port o)
             (default SIMULATOR_ROOT_PATH (opt_root_path o))
             (default "main" (opt_simulator_name o)))).

(** Its root path and its RPC port, as stored. *)
Definition session_root (o : sim_options) : value :=
  PyPath (joinpath (Path (default SIMULATOR_ROOT_PATH (opt_root_path o)))
            (default "main" (opt_simulator_name o))).

Definition session_port (o : sim_options) : value :=
  py_optional_int (opt_rpc_port o).

(** The first line [create] prints on that session. *)
Definition directory_banner (o : sim_options) : string :=
  "Using this Directory: " +:+ py_str (session_root o) +:+ nl.

Definition both_given_message : string :=
  "You can't use both a fingerprint and a mnemonic. Please choose one.".

(** The group [start] and [stop] build. *)
Definition service_group (wallet : bool) : list string :=
  "simulator" :: (if wallet then ["wallet"] else []).

(** The invariant of a service group: "simulator" comes first, "wallet" is
    in it exactly when the wallet flag was given, and then right after
    "simulator", and it holds no other name. *)
Definition well_formed_group (wallet : bool) (g : list string) : Prop :=
  head g = Some "simulator" /\
  ("wallet" ∈ g <-> wallet = true) /\
  (wallet = true -> g !! 1%nat = Some "wallet") /\
  (forall name, name ∈ g -> name = "simulator" \/ name = "wallet").

(** ** Reading a trace *)

Definition is_wizard_call (e : event path object) : bool :=
  match e with
  | Called (call_async_config_wizard _ _ _ _ _ _ _ _) => true
  | _ => false
  end.

Definition is_print (e : event path object) : bool :=
  match e with
  | Printed _ => true
  | _ => false
  end.

Definition is_call (e : event path object) : bool :=
  match e with
  | Called _ => true
  | _ => false
  end.

(** The service groups handed to the lifecycle manager. *)
Definition lifecycle_group (e : event path object) : option (list string) :=
  match e with
  | Called (call_start_async _ group _) => Some group
  | Called (call_async_stop _ _ group _) => Some group
  | _ => None
  end.

Definition lifecycle_groups (t : trace) : list (list string) :=
  omap lifecycle_group t.

(** The arguments forwarded to an action through the RPC harness. *)
Definition action_args (f : sim_function) (e : event path object)
    : option (list value) :=
  match e with
  | Called (call_execute_with_simulator _ _ g _ args) =>
      if decide (f = g) then Some args else None
  | _ => None
  end.

Definition forwarded (f : sim_function) (t : trace) : list (list value) :=
  omap (action_args f) t.

Definition is_prompt (e : event path object) : bool :=
  match e with
  | Prompted _ => true
  | _ => false
  end.

(** The collaborator calls of a trace, in order. *)
Definition calls (t : trace) : list (call path object) :=
  omap (fun e => match e with Called c => Some c | _ => None end) t.

(** The root path argument of a call. *)
Definition call_root_path (c : call path object) : value :=
  match c with
  | call_async_config_wizard root_path _ _ _ _ _ _ _ => root_path
  | call_start_async root_path _ _ => root_path
  | call_load_config root_path _ => root_path
  | call_async_stop root_path _ _ _ => root_path
  | call_execute_with_simulator _ root_path _ _ _ => root_path
  end.

(** The command lines that make [revert] ask for a confirmation. *)
Definition asks_confirmation (sub : subcommand) : bool :=
  match sub with
  | cmd_revert _ _ _ force disable_prompt => force && negb disable_prompt
  | _ => false
  end.

Definition is_create (sub : subcommand) : bool :=
  match sub with
  | cmd_create _ _ _ _ _ _ _ => true
  | _ => false
  end.

Definition is_revert (sub : subcommand) : bool :=
  match sub with
  | cmd_revert _ _ _ _ _ => true
  | _ => false
  end.

(** The function a command hands to the RPC harness, if it uses it. *)
Definition command_action (sub : subcommand) : option sim_function :=
  match sub with
  | cmd_status _ _ _ _ _ => Some print_status
  | cmd_revert _ _ _ _ _ => Some revert_block_height
  | cmd_farm _ _ _ => Some farm_blocks
  | cmd_autofarm _ => Some set_auto_farm
  | _ => None
  end.

(** What a call of the RPC harness has to look like for the command [sub] of
    an invocation with the options [o]; nothing is asked of other calls. *)
Definition harness_call_ok (o : sim_options) (sub : subcommand)
    (c : call path object) : Prop :=
  match c with
  | call_execute_with_simulator rpc_port _ function must_be_running _ =>
      rpc_port = session_port o /\
      must_be_running = true /\
      command_action sub = Some function
  | _ => True
  end.

End Commands.

Arguments mkResult {H A}.
Arguments outcome {H A}.
Arguments events {H A}.
Arguments final {H A}.

Notation "'let*' x ':=' c 'in' k" := (bind c (fun x => k))
  (at level 10, x pattern, c at level 100, k at level 200).

(** ** A scripted test double

    Paths are strings in the normal form of pathlib on POSIX; every call of
    a collaborator answers with the next completion of a script ([None] once
    the script is used up), and the wizard also reads one line when there is
    one.  Used to run the commands on concrete inputs. *)

Module Scripted.

(** The text between the slashes of a string. *)
Fixpoint segments (s : string) : list string :=
  match s with
  | EmptyString => [EmptyString]
  | String c rest =>
      if Ascii.eqb c "/"%char then EmptyString :: segments rest
      else
        match segments rest with
        | [] => [String c EmptyString]
        | seg :: segs => String c seg :: segs
        end
  end.

(** The parts of a path: pathlib drops empty segments and single dots. *)
Definition parts (s : string) : list string :=
  List.filter
    (fun seg => negb (String.eqb seg "") && negb (String.eqb seg "."))
    (segments s).

Fixpoint leading_slashes (s : string) : nat :=
  match s with
  | String c rest =>
      if Ascii.eqb c "/"%char then S (leading_slashes rest) else O
  | EmptyString => O
  end.

(** The root of a path: none, a slash, or two slashes when there are exactly
    two. *)
Definition anchor (s : string) : string :=
  match leading_slashes s with
  | O => ""
  | 2%nat => "//"
  | _ => "/"
  end.

Definition render (root : string) (ps : list string) : string :=
  match ps with
  | [] => if String.eqb root "" then "." else root
  | _ => root +:+ String.concat "/" ps
  end.

(** [str(PurePosixPath(s))] *)
Definition posix_path (s : string) : string :=
  render (anchor s) (parts s).

(** [str(PurePosixPath(p) / s)]: an absolute [s] replaces [p]. *)
Definition posix_join (p s : string) : string :=
  match leading_slashes s with
  | O => render (anchor p) (parts p ++ parts s)
  | _ => posix_path s
  end.

Definition collaborators : Collaborators := {|
  path := string;
  object := unit;
  ExtState := list (completion (pyval string unit));
  SIMULATOR_ROOT_PATH := "/home/user/.chia/simulator";
  Path := posix_path;
  joinpath := posix_join;
  path_str := fun p => p;
  object_str := fun _ => "{}";
  collaborate := fun _ script =>
    match script with
    | [] => (Returned PyNone, [])
    | answer :: rest => (answer, rest)
    end;
  converse := fun _ typed script =>
    match script with
    | [] => (Returned PyNone, tail typed, [])
    | answer :: rest => (answer, tail typed, rest)
    end
|}.

(** No object on the context yet, no option on the command line. *)
Definition fresh : click_Context (H := collaborators) :=
  @mkContext collaborators None.

Definition no_options : sim_options := mkSimOptions None None None.

Definition world (typed : list string)
    (script : list (completion (pyval string unit)))
    : World (H := collaborators) :=
  @mkWorld collaborators typed script.

Definition run (sub : subcommand) (typed : list string)
    (script : list (completion (pyval string unit)))
    : Result (H := collaborators) unit :=
  cli_sim fresh no_options sub (world typed script).

End Scripted.

(** * Properties *)

Section Properties.
Context `{Collaborators}.

Local Abbreviation value := (pyval path object).

(** ** The monad *)

Lemma result_eta {A} (r : Result A) :
  mkResult (outcome r) (events r) (final r) = r.
Proof. by destruct r. Qed.

Lemma bind_returned {A B} (m : M A) (k : A -> M B) w a t w' :
  m w = mkResult (Returned a) t w' ->
  bind m k w =
  mkResult (outcome (k a w')) (t ++ events (k a w')) (final (k a w')).
Proof. intros Hm. unfold bind. by rewrite Hm. Qed.

Lemma bind_pure {A B} (m : M A) (k : A -> M B) w a :
  m w = mkResult (Returned a) [] w -> bind m k w = k a w.
Proof.
  intros Hm. rewrite (bind_returned _ _ _ _ _ _ Hm). apply result_eta.
Qed.

(** ** The session context *)

Lemma sim_cmd_run ctx rpc_port root_path simulator_name w :
  sim_cmd ctx rpc_port root_path simulator_name w =
  mkResult
    (Returned (mkContext
       (Some (resolved (default ∅ (obj ctx)) rpc_port root_path
                simulator_name))))
    [] w.
Proof.
  unfold sim_cmd, ensure_object.
  destruct ctx as [[d|]]; reflexivity.
Qed.

Lemma sim_group_run ctx o w :
  sim_group ctx o w = mkResult (Returned (session ctx o)) [] w.
Proof. unfold sim_group. apply sim_cmd_run. Qed.

Lemma cli_sim_run ctx o sub w :
  cli_sim ctx o sub w = run_subcommand (session ctx o) sub w.
Proof.
  unfold cli_sim.
  exact (bind_pure _ (fun c => run_subcommand c sub) _ _
           (sim_group_run ctx o w)).
Qed.

Lemma session_root_path ctx o w :
  obj_get (session ctx o) "root_path" w =
  mkResult (Returned (session_root o)) [] w.
Proof.
  unfold obj_get, session, resolved; simpl.
  rewrite lookup_insert_ne by done.
  rewrite lookup_insert_ne by done.
  by rewrite lookup_insert_eq.
Qed.

Lemma session_rpc_port ctx o w :
  obj_get (session ctx o) "rpc_port" w =
  mkResult (Returned (session_port o)) [] w.
Proof.
  unfold obj_get, session, resolved; simpl.
  by rewrite lookup_insert_eq.
Qed.

Lemma session_sim_name ctx o w :
  obj_get (session ctx o) "sim_name" w =
  mkResult (Returned (PyStr (default "main" (opt_simulator_name o)))) [] w.
Proof.
  unfold obj_get, session, resolved; simpl.
  rewrite lookup_insert_ne by done.
  by rewrite lookup_insert_eq.
Qed.

(** Steps through the lookups of a command run on a resolved session. *)
Ltac session_step :=
  first
    [ rewrite (bind_pure _ _ _ _ (session_rpc_port _ _ _))
    | rewrite (bind_pure _ _ _ _ (session_root_path _ _ _)) ].

(** ** Each command on a resolved session *)

Lemma create_run ctx o w fingerprint reward_address plot_directory mnemonic
    auto_farm docker_mode no_bitfield :
  create_simulator_config (session ctx o) fingerprint reward_address
    plot_directory mnemonic auto_farm docker_mode no_bitfield w =
  if truthy_int fingerprint && truthy_str mnemonic then
    mkResult (Returned tt)
      [Printed (directory_banner o); Printed both_given_message] w
  else
    let c := call_async_config_wizard (session_root o) fingerprint
               reward_address plot_directory mnemonic auto_farm docker_mode
               (negb no_bitfield) in
    let answer := converse c (stdin w) (ext w) in
    mkResult (discard answer.1.1)
      [Printed (directory_banner o); Called c]
      (mkWorld answer.1.2 answer.2).
Proof.
  unfold create_simulator_config. session_step.
  destruct (truthy_int fingerprint && truthy_str mnemonic); [reflexivity|].
  unfold bind at 1. simpl. session_step.
  unfold bind, async_config_wizard, invoke_interactive; simpl.
  destruct (converse _ (stdin w) (ext w)) as [[[v|n|e] typed] s];
    reflexivity.
Qed.

Lemma start_run ctx o w restart wallet :
  start_cmd (session ctx o) restart wallet w =
  let c := call_start_async (session_root o) (service_group wallet) restart in
  mkResult (discard (collaborate c (ext w)).1) [Called c]
    (mkWorld (stdin w) (collaborate c (ext w)).2).
Proof.
  unfold start_cmd. session_step.
  unfold bind, start_async, invoke, service_group; simpl.
  destruct wallet; simpl;
    destruct (collaborate _ (ext w)) as [[v|n|e] s]; reflexivity.
Qed.

Lemma stop_run ctx o w daemon wallet :
  stop_cmd (session ctx o) daemon wallet w =
  let c1 := call_load_config (session_root o) "config.yaml" in
  match (collaborate c1 (ext w)).1 with
  | Returned config =>
      let c2 := call_async_stop (session_root o) config
                  (service_group wallet) daemon in
      let r2 := collaborate c2 (collaborate c1 (ext w)).2 in
      mkResult
        match r2.1 with
        | Returned status => SystemExit (exit_status status)
        | SystemExit n => SystemExit n
        | Raised e => Raised e
        end
        [Called c1; Called c2] (mkWorld (stdin w) r2.2)
  | SystemExit n =>
      mkResult (SystemExit n) [Called c1]
        (mkWorld (stdin w) (collaborate c1 (ext w)).2)
  | Raised e =>
      mkResult (Raised e) [Called c1]
        (mkWorld (stdin w) (collaborate c1 (ext w)).2)
  end.
Proof.
  unfold stop_cmd. session_step.
  unfold bind at 1. unfold load_config, invoke; simpl.
  destruct (collaborate _ (ext w)) as [[config|n|e] s1]; simpl;
    [|reflexivity|reflexivity].
  session_step.
  unfold bind, async_stop, invoke, sys_exit, service_group; simpl.
  destruct wallet; simpl;
    destruct (collaborate _ s1) as [[status|n|e] s2]; reflexivity.
Qed.

(** What [revert] does once the confirmation is behind it, from the world
    [w] and after the events [t]. *)
Lemma revert_run ctx o w blocks new_blocks reset force disable_prompt :
  revert_cmd (session ctx o) blocks new_blocks reset force disable_prompt w =
  let after_prompt (t : list (event path object)) (w' : World) :=
    if reset && negb (Z.eqb blocks 1) then
      mkResult (Returned tt) (t ++ [Printed reset_blocks_message]) w'
    else
      let c := call_execute_with_simulator (session_port o) (session_root o)
                 revert_block_height true
                 [PyInt blocks; PyInt new_blocks; PyBool reset; PyBool force]
      in
      mkResult (discard (collaborate c (ext w')).1) (t ++ [Called c])
        (mkWorld (stdin w') (collaborate c (ext w')).2)
  in
  if force && negb disable_prompt then
    match stdin w with
    | [] => mkResult (Raised EOFError) [Prompted input_str] w
    | answer :: rest =>
        if String.eqb answer "y"
        then after_prompt [Prompted input_str] (mkWorld rest (ext w))
        else mkResult (Returned tt) [Prompted input_str] (mkWorld rest (ext w))
    end
  else after_prompt [] w.
Proof.
  assert (Hafter : forall w',
    (if reset && negb (Z.eqb blocks 1) then
       let* _ := print reset_blocks_message in ret tt
     else
       let* rpc_port := obj_get (session ctx o) "rpc_port" in
       let* root_path := obj_get (session ctx o) "root_path" in
       let* _ := execute_with_simulator rpc_port root_path
                   revert_block_height true
                   [PyInt blocks; PyInt new_blocks; PyBool reset;
                    PyBool force] in
       ret tt) w' =
    if reset && negb (Z.eqb blocks 1) then
      mkResult (Returned tt) [Printed reset_blocks_message] w'
    else
      let c := call_execute_with_simulator (session_port o) (session_root o)
                 revert_block_height true
                 [PyInt blocks; PyInt new_blocks; PyBool reset; PyBool force]
      in
      mkResult (discard (collaborate c (ext w')).1) [Called c]
        (mkWorld (stdin w') (collaborate c (ext w')).2)).
  { intros w'. destruct (reset && negb (Z.eqb blocks 1)); [reflexivity|].
    do 2 session_step.
    unfold bind, execute_with_simulator, invoke; simpl.
    destruct (collaborate _ (ext w')) as [[v|n|e] s]; reflexivity. }
  unfold revert_cmd.
  destruct (force && negb disable_prompt).
  - unfold bind at 1, input. destruct (stdin w) as [|answer rest]; simpl;
      [reflexivity|].
    destruct (String.eqb answer "y"); simpl; [|reflexivity].
    rewrite Hafter. by destruct (reset && negb (Z.eqb blocks 1)).
  - rewrite Hafter. by destruct (reset && negb (Z.eqb blocks 1)).
Qed.

(** A command that only forwards to the RPC harness. *)
Lemma harness_run ctx o w function args :
  (let* rpc_port := obj_get (session ctx o) "rpc_port" in
   let* root_path := obj_get (session ctx o) "root_path" in
   let* _ := execute_with_simulator rpc_port root_path function true args in
   ret tt) w =
  let c := call_execute_with_simulator (session_port o) (session_root o)
             function true args in
  mkResult (discard (collaborate c (ext w)).1) [Called c]
    (mkWorld (stdin w) (collaborate c (ext w)).2).
Proof.
  do 2 session_step.
  unfold bind, execute_with_simulator, invoke; simpl.
  destruct (collaborate _ (ext w)) as [[v|n|e] s]; reflexivity.
Qed.

Lemma farm_run ctx o w blocks non_transaction target_address :
  farm_cmd (session ctx o) blocks non_transaction target_address w =
  let c := call_execute_with_simulator (session_port o) (session_root o)
             farm_blocks true
             [PyInt blocks; PyBool (negb non_transaction);
              PyStr target_address] in
  mkResult (discard (collaborate c (ext w)).1) [Called c]
    (mkWorld (stdin w) (collaborate c (ext w)).2).
Proof. apply harness_run. Qed.

Lemma status_run ctx o w fingerprint show_key show_coins include_rewards
    show_addresses :
  status_cmd (session ctx o) fingerprint show_key show_coins include_rewards
    show_addresses w =
  let c := call_execute_with_simulator (session_port o) (session_root o)
             print_status true
             [py_optional_int fingerprint; PyBool show_key; PyBool show_coins;
              PyBool include_rewards; PyBool show_addresses] in
  mkResult (discard (collaborate c (ext w)).1) [Called c]
    (mkWorld (stdin w) (collaborate c (ext w)).2).
Proof. apply harness_run. Qed.

Lemma autofarm_run ctx o w set_autofarm :
  autofarm_cmd (session ctx o) (on_off_str set_autofarm) w =
  let c := call_execute_with_simulator (session_port o) (session_root o)
             set_auto_farm true
             [PyBool match set_autofarm with
                     | choice_on => true
                     | choice_off => false
                     end] in
  mkResult (discard (collaborate c (ext w)).1) [Called c]
    (mkWorld (stdin w) (collaborate c (ext w)).2).
Proof.
  unfold autofarm_cmd. rewrite harness_run. by destruct set_autofarm.
Qed.

(** ** The claims *)

(** C8. Resolving the session context of an invocation is pure and always
    succeeds: [sim_group] returns, prints and calls nothing and leaves the
    world as it was; the context it returns holds, under "root_path", the
    base root joined with the simulator name, under "sim_name" that name,
    which is "main" when the option is absent, and under "rpc_port" the
    port override unchanged, [None] when it was not supplied. *)
Theorem session_context_resolution ctx w
    (rpc_port : option Z) (root_path simulator_name : option string) :
  let o := mkSimOptions rpc_port root_path simulator_name in
  let base_root :=
    match root_path with Some p => p | None => SIMULATOR_ROOT_PATH end in
  let name := match simulator_name with Some n => n | None => "main" end in
  exists ctx' d,
    sim_group ctx o w = mkResult (Returned ctx') [] w /\
    obj ctx' = Some d /\
    d !! "root_path" = Some (PyPath (joinpath (Path base_root) name)) /\
    d !! "sim_name" = Some (PyStr name) /\
    d !! "rpc_port" =
      Some match rpc_port with Some p => PyInt p | None => PyNone end.
Proof.
  intros o base_root name.
  exists (session ctx o),
    (resolved (default ∅ (obj ctx)) rpc_port base_root name).
  split; [apply sim_group_run|].
  split; [by destruct root_path, simulator_name|].
  unfold resolved. repeat split.
  - rewrite !lookup_insert_ne by done. by rewrite lookup_insert_eq.
  - rewrite lookup_insert_ne by done. by rewrite lookup_insert_eq.
  - rewrite lookup_insert_eq. by destruct rpc_port.
Qed.

(** C1, amended. When the fingerprint given to [create] is a non-zero
    integer and the mnemonic a non-empty string, the command prints the
    directory line and the message that both cannot be used, returns, and
    calls no collaborator: the provisioning wizard is not invoked and the
    world is unchanged. *)
Theorem create_rejects_fingerprint_and_mnemonic ctx o w
    (fingerprint : Z) (mnemonic : string)
    reward_address plot_directory auto_farm docker_mode no_bitfield :
  fingerprint <> 0 ->
  mnemonic <> "" ->
  let r := cli_sim ctx o
             (cmd_create (Some fingerprint) reward_address plot_directory
                (Some mnemonic) auto_farm docker_mode no_bitfield) w in
  r = mkResult (Returned tt)
        [Printed (directory_banner o); Printed both_given_message] w /\
  existsb is_wizard_call (events r) = false.
Proof.
  intros Hf Hm r. subst r.
  rewrite cli_sim_run; simpl. rewrite create_run.
  assert (truthy_int (Some fingerprint) && truthy_str (Some mnemonic) = true)
    as ->.
  { simpl. apply andb_true_iff. split; apply negb_true_iff.
    - by apply Z.eqb_neq.
    - by apply String.eqb_neq. }
  by split.
Qed.

(** C2, amended. With reset set and a number of blocks other than 1,
    [revert] never calls a collaborator (no RPC call, the outside state is
    unchanged).  It prints the message about '-b' and '-r' and returns,
    except when the forced deletion has to be confirmed (force without
    disable_prompt) and the answer is not 'y': then it ends at the prompt
    and prints no message. *)
Theorem revert_reset_rejects_blocks ctx o w blocks new_blocks force
    disable_prompt :
  default 1 blocks <> 1 ->
  let r := cli_sim ctx o
             (cmd_revert blocks new_blocks true force disable_prompt) w in
  existsb is_call (events r) = false /\
  ext (final r) = ext w /\
  r = if force && negb disable_prompt then
        match stdin w with
        | [] => mkResult (Raised EOFError) [Prompted input_str] w
        | answer :: rest =>
            if String.eqb answer "y" then
              mkResult (Returned tt)
                [Prompted input_str; Printed reset_blocks_message]
                (mkWorld rest (ext w))
            else
              mkResult (Returned tt) [Prompted input_str]
                (mkWorld rest (ext w))
        end
      else mkResult (Returned tt) [Printed reset_blocks_message] w.
Proof.
  intros Hb r. subst r.
  rewrite cli_sim_run; simpl. rewrite revert_run.
  apply Z.eqb_neq in Hb. rewrite Hb; simpl.
  destruct (force && negb disable_prompt).
  - destruct (stdin w) as [|answer rest]; [done|].
    by destruct (String.eqb answer "y").
  - done.
Qed.

(** C3. When [revert] is run with force and without disable_prompt and the
    line the user enters is anything but 'y', the command returns normally
    after the prompt: nothing else is printed, no collaborator is called and
    the outside state is unchanged. *)
Theorem revert_force_declined ctx o w blocks new_blocks reset answer rest :
  stdin w = answer :: rest ->
  answer <> "y" ->
  cli_sim ctx o (cmd_revert blocks new_blocks reset true false) w =
  mkResult (Returned tt) [Prompted input_str] (mkWorld rest (ext w)).
Proof.
  intros Hin Hans.
  rewrite cli_sim_run; simpl. rewrite revert_run; simpl.
  rewrite Hin. apply String.eqb_neq in Hans. by rewrite Hans.
Qed.

(** C9. In [revert] the confirmation of a forced deletion comes before the
    check of reset against blocks.  With force and without disable_prompt
    the prompt is the first thing that happens, whatever reset and blocks
    are; an answer other than 'y' ends the command there, silently, also
    when reset is set with blocks other than 1; and with the answer 'y' that
    combination is rejected with the message only after the prompt. *)
Theorem revert_prompt_precedes_reset_check ctx o w blocks new_blocks reset :
  let r := cli_sim ctx o (cmd_revert blocks new_blocks reset true false) w in
  head (events r) = Some (Prompted input_str) /\
  (forall answer rest,
     stdin w = answer :: rest -> answer <> "y" ->
     r = mkResult (Returned tt) [Prompted input_str]
           (mkWorld rest (ext w))) /\
  (forall rest,
     stdin w = "y" :: rest -> reset = true -> default 1 blocks <> 1 ->
     r = mkResult (Returned tt)
           [Prompted input_str; Printed reset_blocks_message]
           (mkWorld rest (ext w))).
Proof.
  intros r. subst r.
  rewrite cli_sim_run; simpl. rewrite revert_run; simpl.
  split; [|split].
  - destruct (stdin w) as [|answer rest]; [done|].
    destruct (String.eqb answer "y"); [|done].
    by destruct (reset && negb (Z.eqb (default 1 blocks) 1)).
  - intros answer rest -> Hans.
    apply String.eqb_neq in Hans. by rewrite Hans.
  - intros rest -> -> Hb. apply Z.eqb_neq in Hb. by rewrite Hb.
Qed.

(** What [stop] ends with once the configuration is loaded and the
    lifecycle manager has returned [status]. *)
Lemma stop_exits_with ctx o w daemon wallet config (status : value) s1 s2 :
  collaborate (call_load_config (session_root o) "config.yaml") (ext w) =
    (Returned config, s1) ->
  collaborate
    (call_async_stop (session_root o) config (service_group wallet) daemon)
    s1 = (Returned status, s2) ->
  outcome (cli_sim ctx o (cmd_stop daemon wallet) w) =
  SystemExit (exit_status status).
Proof.
  intros Hload Hstop.
  rewrite cli_sim_run; simpl. rewrite stop_run; simpl.
  rewrite Hload; simpl. by rewrite Hstop.
Qed.

(** A status from 0 to 255 is the exit code as it is. *)
Lemma exit_byte_small status : 0 <= status < 256 -> exit_byte status = status.
Proof.
  intros Hs. unfold exit_byte.
  assert (Z.leb (- 2 ^ 63) status = true) as -> by (apply Z.leb_le; lia).
  assert (Z.ltb status (2 ^ 63) = true) as -> by (apply Z.ltb_lt; lia).
  simpl. by apply Z.mod_small.
Qed.

(** C4, amended. When [stop] runs (the configuration loads and the
    lifecycle manager's stop returns the status code [status]), the command
    ends by [sys.exit] with that code.  The exit code of the process is what
    is left of it, its low eight bits: it is [status] itself for every
    status from 0 to 255, and so it is not 0 for a status from 1 to 255. *)
Theorem stop_exit_code_is_manager_status ctx o w daemon wallet config
    (status : Z) s1 s2 :
  collaborate (call_load_config (session_root o) "config.yaml") (ext w) =
    (Returned config, s1) ->
  collaborate
    (call_async_stop (session_root o) config (service_group wallet) daemon)
    s1 = (Returned (PyInt status), s2) ->
  let r := cli_sim ctx o (cmd_stop daemon wallet) w in
  outcome r = SystemExit status /\
  process_exit_code (outcome r) = exit_byte status /\
  (0 <= status < 256 -> process_exit_code (outcome r) = status) /\
  (0 < status < 256 -> process_exit_code (outcome r) <> 0).
Proof.
  intros Hload Hstop r. subst r.
  rewrite (stop_exits_with _ _ _ _ _ _ _ _ _ Hload Hstop); simpl.
  split; [done|]. split; [done|]. split.
  - apply exit_byte_small.
  - intros Hs. rewrite exit_byte_small by lia. lia.
Qed.

(** C10. [start] discards what the lifecycle manager's start returns:
    whatever value [status] that is, the command returns and the exit code
    of the process is 0.  [stop], given the same value by the manager's
    stop, ends by [sys.exit] with the code that value stands for. *)
Theorem start_discards_manager_status ctx o w restart wallet
    (status : value) s1 :
  collaborate
    (call_start_async (session_root o) (service_group wallet) restart)
    (ext w) = (Returned status, s1) ->
  let r := cli_sim ctx o (cmd_start restart wallet) w in
  outcome r = Returned tt /\
  process_exit_code (outcome r) = 0 /\
  (forall w' daemon config s0 s2,
     collaborate (call_load_config (session_root o) "config.yaml") (ext w') =
       (Returned config, s0) ->
     collaborate
       (call_async_stop (session_root o) config (service_group wallet)
          daemon) s0 = (Returned status, s2) ->
     outcome (cli_sim ctx o (cmd_stop daemon wallet) w') =
     SystemExit (exit_status status)).
Proof.
  intros Hstart r. subst r.
  rewrite cli_sim_run; simpl. rewrite start_run; simpl.
  rewrite Hstart; simpl. repeat split.
  intros w' daemon config s0 s2 Hload Hstop.
  exact (stop_exits_with _ _ _ _ _ _ _ _ _ Hload Hstop).
Qed.

(** C5. The service group [start] hands to the lifecycle manager, and the
    one [stop] hands to it once the configuration is loaded, starts with
    "simulator", holds "wallet" (right after it) exactly when the wallet
    flag was given, and holds nothing else. *)
Theorem lifecycle_group_invariant ctx o w restart daemon wallet :
  let started := cli_sim ctx o (cmd_start restart wallet) w in
  let stopped := cli_sim ctx o (cmd_stop daemon wallet) w in
  let loaded :=
    collaborate (call_load_config (session_root o) "config.yaml") (ext w) in
  (exists g, lifecycle_groups (events started) = [g] /\
             well_formed_group wallet g) /\
  (exists g, lifecycle_groups (events stopped) =
               match loaded.1 with Returned _ => [g] | _ => [] end /\
             well_formed_group wallet g).
Proof.
  assert (Hwf : well_formed_group wallet (service_group wallet)).
  { unfold well_formed_group, service_group.
    destruct wallet; simpl; repeat split; try done.
    all: try (rewrite list_elem_of_In; simpl; intuition congruence).
    all: intros name Hin; apply list_elem_of_In in Hin; simpl in Hin.
    all: intuition. }
  intros started stopped loaded. subst started stopped loaded.
  rewrite !cli_sim_run; simpl. rewrite start_run, stop_run; simpl.
  split; exists (service_group wallet); (split; [|exact Hwf]).
  - done.
  - by destruct (collaborate _ (ext w)) as [[config|n|e] s1].
Qed.

(** C6, amended. The block count [farm] forwards to the Farm action is the
    integer given with the blocks option, as it is (it is not checked to be
    positive), and 1 when the option is not supplied. *)
Theorem farm_forwards_block_count ctx o w blocks non_transaction
    target_address :
  head <$> forwarded farm_blocks
             (events (cli_sim ctx o
                        (cmd_farm blocks non_transaction target_address) w)) =
  [Some (PyInt match blocks with Some n => n | None => 1 end)].
Proof.
  rewrite cli_sim_run; simpl. rewrite farm_run; simpl.
  by destruct blocks.
Qed.

(** C7. [farm] passes, as the second argument of the Farm action, the
    negation of the non_transaction flag: [true] when the flag is absent,
    [false] when it is given. *)
Theorem farm_transaction_flag ctx o w blocks non_transaction target_address :
  (.!! 1%nat) <$> forwarded farm_blocks
                    (events (cli_sim ctx o
                               (cmd_farm blocks non_transaction
                                  target_address) w)) =
  [Some (PyBool (if non_transaction then false else true))].
Proof.
  rewrite cli_sim_run; simpl. rewrite farm_run; simpl.
  by destruct non_transaction.
Qed.

(** ** Further properties of the commands *)

(** X1. [create] calls the provisioning wizard exactly when it does not
    reject, that is unless the fingerprint is a non-zero integer and the
    mnemonic a non-empty string; it calls it at most once, and in both cases
    the directory line is the first thing printed. *)
Theorem create_wizard_unless_both ctx o w fingerprint reward_address
    plot_directory mnemonic auto_farm docker_mode no_bitfield :
  let r := cli_sim ctx o
             (cmd_create fingerprint reward_address plot_directory mnemonic
                auto_farm docker_mode no_bitfield) w in
  existsb is_wizard_call (events r) =
    negb (truthy_int fingerprint && truthy_str mnemonic) /\
  length (calls (events r)) =
    (if truthy_int fingerprint && truthy_str mnemonic then 0 else 1)%nat /\
  head (events r) = Some (Printed (directory_banner o)).
Proof.
  intros r. subst r.
  rewrite cli_sim_run; simpl. rewrite create_run.
  by destruct (truthy_int fingerprint && truthy_str mnemonic).
Qed.

(** X2. When [create] does not reject, the wizard gets the session's root
    path, the options as given and the negation of no_bitfield, and the
    lines the user types from there on; the command returns [None] when the
    wizard returns, an exception or exit of the wizard is the command's, and
    the input and the outside state are left as the wizard left them. *)
Theorem create_forwards_to_wizard ctx o w fingerprint reward_address
    plot_directory mnemonic auto_farm docker_mode no_bitfield :
  truthy_int fingerprint && truthy_str mnemonic = false ->
  let c := call_async_config_wizard (session_root o) fingerprint
             reward_address plot_directory mnemonic auto_farm docker_mode
             (negb no_bitfield) in
  let r := cli_sim ctx o
             (cmd_create fingerprint reward_address plot_directory mnemonic
                auto_farm docker_mode no_bitfield) w in
  let answer := converse c (stdin w) (ext w) in
  events r = [Printed (directory_banner o); Called c] /\
  outcome r = discard answer.1.1 /\
  final r = mkWorld answer.1.2 answer.2.
Proof.
  intros Hgo c r answer. subst c r answer.
  rewrite cli_sim_run; simpl. rewrite create_run, Hgo. by repeat split.
Qed.

(** X3. Without a confirmation to ask (no force, or disable_prompt) and
    unless reset comes with a block count other than 1, [revert] makes one
    call of the RPC harness for revert_block_height, with the block counts
    given (1 each by default) and the reset and force flags as given; it
    shows no prompt and reads no input. *)
Theorem revert_forwards_to_harness ctx o w blocks new_blocks reset force
    disable_prompt :
  force && negb disable_prompt = false ->
  reset && negb (Z.eqb (default 1 blocks) 1) = false ->
  let c := call_execute_with_simulator (session_port o) (session_root o)
             revert_block_height true
             [PyInt (default 1 blocks); PyInt (default 1 new_blocks);
              PyBool reset; PyBool force] in
  let r := cli_sim ctx o
             (cmd_revert blocks new_blocks reset force disable_prompt) w in
  events r = [Called c] /\
  outcome r = discard (collaborate c (ext w)).1 /\
  final r = mkWorld (stdin w) (collaborate c (ext w)).2.
Proof.
  intros Hask Hok c r. subst c r.
  rewrite cli_sim_run; simpl. rewrite revert_run, Hask, Hok.
  by repeat split.
Qed.

(** X4. A forced revert confirmed with 'y' (and not rejected for reset with
    blocks) consumes that one line and then calls the RPC harness once, with
    force set. *)
Theorem revert_confirmed_calls_harness ctx o w blocks new_blocks reset rest :
  stdin w = "y" :: rest ->
  reset && negb (Z.eqb (default 1 blocks) 1) = false ->
  let c := call_execute_with_simulator (session_port o) (session_root o)
             revert_block_height true
             [PyInt (default 1 blocks); PyInt (default 1 new_blocks);
              PyBool reset; PyBool true] in
  let r := cli_sim ctx o (cmd_revert blocks new_blocks reset true false) w in
  events r = [Prompted input_str; Called c] /\
  outcome r = discard (collaborate c (ext w)).1 /\
  final r = mkWorld rest (collaborate c (ext w)).2.
Proof.
  intros Hin Hok c r. subst c r.
  rewrite cli_sim_run; simpl. rewrite revert_run; simpl.
  rewrite Hin, Hok; simpl. by repeat split.
Qed.

(** X5. A forced revert that finds the input at its end fails with
    [EOFError] at the prompt: no collaborator is called, nothing is printed
    and the exit code of the process is 1. *)
Theorem revert_prompt_at_end_of_input ctx o w blocks new_blocks reset :
  stdin w = [] ->
  let r := cli_sim ctx o (cmd_revert blocks new_blocks reset true false) w in
  r = mkResult (Raised EOFError) [Prompted input_str] w /\
  process_exit_code (outcome r) = 1.
Proof.
  intros Hin r. subst r.
  rewrite cli_sim_run; simpl. rewrite revert_run; simpl.
  by rewrite Hin.
Qed.

(** X6. Without force, disable_prompt changes nothing in what [revert]
    does. *)
Theorem revert_disable_prompt_needs_force ctx o w blocks new_blocks reset
    disable_prompt :
  cli_sim ctx o (cmd_revert blocks new_blocks reset false disable_prompt) w =
  cli_sim ctx o (cmd_revert blocks new_blocks reset false false) w.
Proof.
  rewrite !cli_sim_run; simpl. by rewrite !revert_run.
Qed.

(** ** The commands on a context the group callback has not filled *)

Lemma bind_raised {A B} (m : M A) (k : A -> M B) w e t w' :
  m w = mkResult (Raised e) t w' -> bind m k w = mkResult (Raised e) t w'.
Proof. intros Hm. unfold bind. by rewrite Hm. Qed.

Lemma obj_get_missing (d : gmap string value) key w :
  d !! key = None ->
  obj_get (mkContext (Some d)) key w = mkResult (Raised (KeyError key)) [] w.
Proof. intros Hd. unfold obj_get; simpl. by rewrite Hd. Qed.

Lemma obj_get_present (d : gmap string value) key v w :
  d !! key = Some v ->
  obj_get (mkContext (Some d)) key w = mkResult (Returned v) [] w.
Proof. intros Hd. unfold obj_get; simpl. by rewrite Hd. Qed.

(** A lookup of "rpc_port" followed by one of "root_path", which is
    missing. *)
Lemma lookups_missing {B} (d : gmap string value) w
    (k : value -> value -> M B) :
  d !! "root_path" = None ->
  exists key,
    d !! key = None /\
    (let* rpc_port := obj_get (mkContext (Some d)) "rpc_port" in
     let* root_path := obj_get (mkContext (Some d)) "root_path" in
     k rpc_port root_path) w = mkResult (Raised (KeyError key)) [] w /\
    (key = "rpc_port" \/ key = "root_path").
Proof.
  intros Hroot. destruct (d !! "rpc_port") as [port|] eqn:Hport.
  - exists "root_path". split; [done|]. split; [|by right].
    rewrite (bind_pure _ _ _ _ (obj_get_present _ _ _ _ Hport)).
    apply bind_raised. by apply obj_get_missing.
  - exists "rpc_port". split; [done|]. split; [|by left].
    apply bind_raised. by apply obj_get_missing.
Qed.

Lemma fails_without_root_path (d : gmap string value) sub w :
  is_revert sub = false ->
  d !! "root_path" = None ->
  exists key,
    d !! key = None /\
    run_subcommand (mkContext (Some d)) sub w =
    mkResult (Raised (KeyError key)) [] w /\
    (key = "rpc_port" \/ key = "root_path").
Proof.
  intros Hsub Hroot.
  destruct sub; try discriminate; simpl.
  - exists "root_path". split; [done|]. split; [|by right].
    unfold create_simulator_config. apply bind_raised.
    by apply obj_get_missing.
  - exists "root_path". split; [done|]. split; [|by right].
    unfold start_cmd. apply bind_raised. by apply obj_get_missing.
  - exists "root_path". split; [done|]. split; [|by right].
    unfold stop_cmd. apply bind_raised. by apply obj_get_missing.
  - by apply lookups_missing.
  - by apply lookups_missing.
  - by apply lookups_missing.
Qed.

(** X7. Run on a context whose object has no "root_path" (the group
    callback did not run), every command but [revert] fails with a
    [KeyError] for a key that is missing, "rpc_port" or "root_path", before
    it prints anything or calls any collaborator. *)
Theorem command_without_session_fails (d : gmap string value) sub w :
  is_revert sub = false ->
  d !! "root_path" = None ->
  exists key,
    d !! key = None /\
    run_subcommand (mkContext (Some d)) sub w =
    mkResult (Raised (KeyError key)) [] w /\
    (key = "rpc_port" \/ key = "root_path").
Proof. apply fails_without_root_path. Qed.

(** X8. [revert] checks reset against blocks before it reads the context:
    with reset, a block count other than 1 and no confirmation to ask, it
    prints the message and returns on any context, also one without an
    object. *)
Theorem revert_rejects_before_context ctx w blocks new_blocks force
    disable_prompt :
  blocks <> 1 ->
  force && negb disable_prompt = false ->
  revert_cmd ctx blocks new_blocks true force disable_prompt w =
  mkResult (Returned tt) [Printed reset_blocks_message] w.
Proof.
  intros Hb Hask. unfold revert_cmd. rewrite Hask.
  apply Z.eqb_neq in Hb. by rewrite Hb.
Qed.

(** X9. No command calls a collaborator from a context whose object has no
    "root_path". *)
Theorem no_call_without_root_path (d : gmap string value) sub w :
  d !! "root_path" = None ->
  calls (events (run_subcommand (mkContext (Some d)) sub w)) = [].
Proof.
  intros Hroot.
  destruct (is_revert sub) eqn:Hsub.
  - destruct sub; try discriminate; simpl.
    destruct (lookups_missing d
                (B := unit) (mkWorld (tail (stdin w)) (ext w))
                (fun rpc_port root_path =>
                   let* _ := execute_with_simulator rpc_port root_path
                               revert_block_height true
                               [PyInt (default 1 blocks);
                                PyInt (default 1 new_blocks);
                                PyBool reset; PyBool force] in
                   ret tt)
                Hroot)
      as (key1 & _ & Hrun1 & _).
    destruct (lookups_missing d
                (B := unit) w
                (fun rpc_port root_path =>
                   let* _ := execute_with_simulator rpc_port root_path
                               revert_block_height true
                               [PyInt (default 1 blocks);
                                PyInt (default 1 new_blocks);
                                PyBool reset; PyBool force] in
                   ret tt)
                Hroot)
      as (key2 & _ & Hrun2 & _).
    unfold revert_cmd.
    destruct (force && negb disable_prompt).
    + unfold bind at 1, input.
      destruct (stdin w) as [|answer rest]; simpl in *; [done|].
      destruct (String.eqb answer "y"); simpl; [|done].
      destruct (reset && negb (Z.eqb (default 1 blocks) 1)); [done|].
      by rewrite Hrun1.
    + destruct (reset && negb (Z.eqb (default 1 blocks) 1)); [done|].
      by rewrite Hrun2.
  - destruct (fails_without_root_path d sub w Hsub Hroot)
      as (key & _ & -> & _).
    done.
Qed.

(** ** Every command of an invocation *)

(** Splits the result of a command into the cases of its run lemma. *)
Ltac case_run :=
  repeat match goal with
    | |- context [if ?b then _ else _] => destruct b eqn:?; simpl
    | |- context [match stdin ?w with _ => _ end] =>
        destruct (stdin w) eqn:?; simpl
    | |- context [(collaborate ?c ?s).1] =>
        destruct (collaborate c s) as [[?|?|?] ?] eqn:?; simpl
    end.

(** Rewrites a command run on a resolved session with its run lemma. *)
Ltac unfold_run :=
  rewrite ?create_run, ?start_run, ?stop_run, ?status_run, ?revert_run,
    ?farm_run, ?autofarm_run.

(** X10. Whatever the command, every collaborator it calls gets the root
    path of the session: the base root joined with the simulator name. *)
Theorem calls_use_session_root ctx o sub w :
  Forall (fun c => call_root_path c = session_root o)
    (calls (events (cli_sim ctx o sub w))).
Proof.
  rewrite cli_sim_run.
  destruct sub; simpl; unfold_run; simpl; case_run;
    repeat constructor.
Qed.

(** X11. Every call of the RPC harness a command makes carries the port
    override of the session, must_be_running set, and the action of that
    command: print_status for status, revert_block_height for revert,
    farm_blocks for farm, set_auto_farm for autofarm.  create, start and
    stop make no such call. *)
Theorem harness_calls_of_command ctx o sub w :
  Forall (harness_call_ok o sub) (calls (events (cli_sim ctx o sub w))).
Proof.
  rewrite cli_sim_run.
  destruct sub; simpl; unfold_run; simpl; case_run;
    repeat constructor.
Qed.

(** X12. Of the commands other than create (whose wizard talks to the user
    inside its call), the module shows a prompt exactly for a forced revert
    without disable_prompt, which takes one line of the input when there is
    one; start, stop, status, farm, autofarm and the other reverts show no
    prompt and leave the input as it is. *)
Theorem prompt_only_for_forced_revert ctx o sub w :
  is_create sub = false ->
  let r := cli_sim ctx o sub w in
  existsb is_prompt (events r) = asks_confirmation sub /\
  stdin (final r) =
    if asks_confirmation sub then tail (stdin w) else stdin w.
Proof.
  intros Hsub r. subst r. rewrite cli_sim_run.
  destruct sub; try discriminate; simpl; unfold_run; simpl; case_run;
    split; simpl; congruence.
Qed.

(** X13. What a command does depends on the options of the invocation, not
    on what the context object held before the group callback ran. *)
Theorem command_ignores_previous_context ctx ctx' o sub w :
  cli_sim ctx o sub w = cli_sim ctx' o sub w.
Proof.
  rewrite !cli_sim_run.
  destruct sub; simpl; unfold_run; reflexivity.
Qed.

(** ** The lifecycle commands when the manager fails *)

(** X14. When loading the configuration fails, [stop] ends with that
    exception after this one call: the lifecycle manager's stop is not
    called, the command does not reach [sys.exit], and the exit code of the
    process is 1. *)
Theorem stop_without_config ctx o w daemon wallet e s1 :
  collaborate (call_load_config (session_root o) "config.yaml") (ext w) =
    (Raised e, s1) ->
  let r := cli_sim ctx o (cmd_stop daemon wallet) w in
  r = mkResult (Raised e)
        [Called (call_load_config (session_root o) "config.yaml")]
        (mkWorld (stdin w) s1) /\
  lifecycle_groups (events r) = [] /\
  process_exit_code (outcome r) = 1.
Proof.
  intros Hload r. subst r.
  rewrite cli_sim_run; simpl. rewrite stop_run; simpl.
  by rewrite Hload.
Qed.

(** X15. [stop] loads "config.yaml" from the session's root path and hands
    the configuration it got, with the service group and the daemon flag, to
    the lifecycle manager's stop for the same root path; these are its only
    calls, however the manager's stop ends. *)
Theorem stop_passes_loaded_config ctx o w daemon wallet config s1 :
  collaborate (call_load_config (session_root o) "config.yaml") (ext w) =
    (Returned config, s1) ->
  calls (events (cli_sim ctx o (cmd_stop daemon wallet) w)) =
  [call_load_config (session_root o) "config.yaml";
   call_async_stop (session_root o) config (service_group wallet) daemon].
Proof.
  intros Hload.
  rewrite cli_sim_run; simpl. rewrite stop_run; simpl.
  by rewrite Hload.
Qed.

(** X16. [start] makes exactly one call, of the lifecycle manager's start
    with the session's root path, the service group and the restart flag;
    an exception or exit of the manager is the command's, and nothing is
    printed or read. *)
Theorem start_calls_manager_once ctx o w restart wallet :
  let c := call_start_async (session_root o) (service_group wallet) restart in
  let r := cli_sim ctx o (cmd_start restart wallet) w in
  events r = [Called c] /\
  outcome r = discard (collaborate c (ext w)).1 /\
  final r = mkWorld (stdin w) (collaborate c (ext w)).2.
Proof.
  intros c r. subst c r.
  rewrite cli_sim_run; simpl. by rewrite start_run.
Qed.

(** ** The context object *)

(** X17. [sim_cmd] writes only its three keys: any other key of the object
    the context came with is kept with its value, and is still absent when
    it was absent or when there was no object. *)
Theorem sim_cmd_keeps_other_keys ctx rpc_port root_path simulator_name w
    (key : string) :
  key <> "root_path" -> key <> "sim_name" -> key <> "rpc_port" ->
  exists d,
    outcome (sim_cmd ctx rpc_port root_path simulator_name w) =
      Returned (mkContext (Some d)) /\
    d !! key = default ∅ (obj ctx) !! key.
Proof.
  intros Hroot Hname Hport.
  rewrite sim_cmd_run; simpl. eexists. split; [reflexivity|].
  unfold resolved. by rewrite !lookup_insert_ne.
Qed.

Lemma resolved_twice (d : gmap string value) p1 r1 n1 p2 r2 n2 :
  resolved (resolved d p1 r1 n1) p2 r2 n2 = resolved d p2 r2 n2.
Proof.
  unfold resolved. apply map_eq. intros key.
  destruct (decide (key = "rpc_port")) as [->|Hport];
    [by rewrite !lookup_insert_eq|].
  rewrite !(lookup_insert_ne _ "rpc_port") by done.
  destruct (decide (key = "sim_name")) as [->|Hname];
    [by rewrite !lookup_insert_eq|].
  rewrite !(lookup_insert_ne _ "sim_name") by done.
  destruct (decide (key = "root_path")) as [->|Hroot];
    [by rewrite !lookup_insert_eq|].
  rewrite !(lookup_insert_ne _ "root_path") by done.
  rewrite !(lookup_insert_ne _ "rpc_port") by done.
  rewrite !(lookup_insert_ne _ "sim_name") by done.
  by rewrite !(lookup_insert_ne _ "root_path") by done.
Qed.

(** X18. Running [sim_cmd] again on the context it returned replaces the
    session: the result is the one of the second run alone, nothing of the
    first run's root path, name or port is left. *)
Theorem sim_cmd_again_replaces ctx w p1 r1 n1 p2 r2 n2 :
  (let* ctx1 := sim_cmd ctx p1 r1 n1 in sim_cmd ctx1 p2 r2 n2) w =
  sim_cmd ctx p2 r2 n2 w.
Proof.
  rewrite (bind_pure _ (fun c => sim_cmd c p2 r2 n2) _ _
             (sim_cmd_run ctx p1 r1 n1 w)).
  rewrite !sim_cmd_run; simpl. by rewrite resolved_twice.
Qed.

(** ** The arguments of the actions *)

(** X19. [autofarm_cmd] turns auto farming on exactly for the string "on":
    it forwards [True] for it and [False] for any other string. *)
Theorem autofarm_on_exactly ctx o w (set_autofarm : string) :
  forwarded set_auto_farm
    (events (autofarm_cmd (session ctx o) set_autofarm w)) =
  [[PyBool (bool_decide (set_autofarm = "on"))]].
Proof.
  unfold autofarm_cmd. rewrite harness_run; simpl.
  case_bool_decide as Hon.
  - by rewrite Hon.
  - apply String.eqb_neq in Hon. by rewrite Hon.
Qed.

(** X20. [status] forwards to print_status the fingerprint, [None] when it
    was not given, and then the four flags in the order show_key,
    show_coins, include_rewards, show_addresses. *)
Theorem status_forwards_query ctx o w fingerprint show_key show_coins
    include_rewards show_addresses :
  forwarded print_status
    (events (cli_sim ctx o
               (cmd_status fingerprint show_key show_coins include_rewards
                  show_addresses) w)) =
  [[match fingerprint with Some n => PyInt n | None => PyNone end;
    PyBool show_key; PyBool show_coins; PyBool include_rewards;
    PyBool show_addresses]].
Proof.
  rewrite cli_sim_run; simpl. rewrite status_run; simpl.
  by destruct fingerprint.
Qed.

(** X21. [farm] forwards three arguments, the last of them the target
    address as given, the empty string when it was not given. *)
Theorem farm_forwards_target_address ctx o w blocks non_transaction
    target_address :
  let args := forwarded farm_blocks
                (events (cli_sim ctx o
                           (cmd_farm blocks non_transaction target_address)
                           w)) in
  length <$> args = [3%nat] /\
  (.!! 2%nat) <$> args =
    [Some (PyStr match target_address with Some a => a | None => "" end)].
Proof.
  intros args. subst args.
  rewrite cli_sim_run; simpl. rewrite farm_run; simpl.
  by destruct target_address.
Qed.

(** X22. status, farm and autofarm make a single attempt: one call of the
    RPC harness and nothing else; the command returns [None] when the
    harness returns, whatever value, and an exception or exit of the harness
    is the command's. *)
Theorem harness_command_single_attempt ctx o sub w function :
  is_revert sub = false ->
  command_action sub = Some function ->
  exists args,
    let c := call_execute_with_simulator (session_port o) (session_root o)
               function true args in
    let r := cli_sim ctx o sub w in
    events r = [Called c] /\
    outcome r = discard (collaborate c (ext w)).1 /\
    final r = mkWorld (stdin w) (collaborate c (ext w)).2.
Proof.
  intros Hsub Hact. rewrite cli_sim_run.
  destruct sub; try discriminate; simpl in *;
    injection Hact as <-; unfold_run; simpl; eexists; by repeat split.
Qed.

(** ** Exit codes *)

(** X23. When the configuration loads but the lifecycle manager's stop ends
    with an exception, [stop] ends with that exception after its two calls:
    it does not reach [sys.exit] and the exit code of the process is 1. *)
Theorem stop_manager_failure ctx o w daemon wallet config e s1 s2 :
  collaborate (call_load_config (session_root o) "config.yaml") (ext w) =
    (Returned config, s1) ->
  collaborate
    (call_async_stop (session_root o) config (service_group wallet) daemon)
    s1 = (Raised e, s2) ->
  let r := cli_sim ctx o (cmd_stop daemon wallet) w in
  outcome r = Raised e /\
  length (calls (events r)) = 2%nat /\
  final r = mkWorld (stdin w) s2 /\
  process_exit_code (outcome r) = 1.
Proof.
  intros Hload Hstop r. subst r.
  rewrite cli_sim_run; simpl. rewrite stop_run; simpl.
  rewrite Hload; simpl. by rewrite Hstop.
Qed.

(** X24. A command that ends without having called a collaborator, because
    it rejected its options or the confirmation was declined, returns
    normally: the exit code of the process is 0, the rejection is only
    printed.  (The input has a line to read; at its end see X5.) *)
Theorem local_abort_exits_zero ctx o sub w :
  calls (events (cli_sim ctx o sub w)) = [] ->
  stdin w <> [] ->
  outcome (cli_sim ctx o sub w) = Returned tt /\
  process_exit_code (outcome (cli_sim ctx o sub w)) = 0.
Proof.
  rewrite cli_sim_run.
  destruct sub; simpl; unfold_run; simpl; case_run; simpl;
    intros; try done.
Qed.

End Properties.

(** * Concrete runs, on the scripted collaborators *)

#[local] Existing Instance Scripted.collaborators.

(** C1 as stated fails: a non-null fingerprint with the non-null mnemonic
    [""] (create -f 1234567890 -m ''), and the non-null fingerprint 0 with a
    mnemonic (create -f 0 -m 'abandon ability able'), both reach the
    provisioning wizard; the message is not printed. *)
Lemma create_non_null_pair_reaches_wizard :
  let empty_mnemonic :=
    Scripted.run
      (cmd_create (Some 1234567890) None None (Some "") None false false)
      [] [] in
  let zero_fingerprint :=
    Scripted.run
      (cmd_create (Some 0) None None (Some "abandon ability able") None
         false false)
      [] [] in
  Some 1234567890 <> None /\ Some "" <> None /\
  events empty_mnemonic =
    [Printed ("Using this Directory: /home/user/.chia/simulator/main" +:+ nl);
     Called (call_async_config_wizard
               (PyPath "/home/user/.chia/simulator/main")
               (Some 1234567890) None None (Some "") None false true)] /\
  existsb is_wizard_call (events empty_mnemonic) = true /\
  Some 0 <> None /\ Some "abandon ability able" <> None /\
  existsb is_wizard_call (events zero_fingerprint) = true.
Proof. repeat split; try discriminate; vm_compute; reflexivity. Qed.

Lemma create_rejects_fingerprint_and_mnemonic_witness :
  let r := Scripted.run
             (cmd_create (Some 1234567890) None None
                (Some "abandon ability able") None false false) [] [] in
  1234567890 <> 0 /\ "abandon ability able" <> "" /\
  r = mkResult (Returned tt)
        [Printed (directory_banner Scripted.no_options);
         Printed both_given_message]
        (Scripted.world [] []) /\
  existsb is_wizard_call (events r) = false.
Proof.
  split; [lia|]. split; [discriminate|].
  apply (create_rejects_fingerprint_and_mnemonic (H := Scripted.collaborators)
           Scripted.fresh Scripted.no_options (Scripted.world [] [])
           1234567890 "abandon ability able" None None None false false);
    [lia | discriminate].
Defined.

(** C2 as stated fails: revert -r -b 5 -f, answered with 'n', ends at the
    prompt; the message about '-b' and '-r' is not printed (nothing is). *)
Lemma revert_reset_declined_prints_nothing :
  let r := Scripted.run (cmd_revert (Some 5) None true true false)
             ["n"] [] in
  5 <> 1 /\
  r = mkResult (Returned tt) [Prompted input_str] (Scripted.world [] []) /\
  existsb is_print (events r) = false.
Proof. repeat split; try lia; vm_compute; reflexivity. Qed.

Lemma revert_reset_rejects_blocks_witness :
  let w := Scripted.world [] [] in
  let r := cli_sim Scripted.fresh Scripted.no_options
             (cmd_revert (Some 5) None true false false) w in
  default 1 (Some 5) <> 1 /\
  existsb is_call (events r) = false /\
  ext (final r) = ext w /\
  r = mkResult (Returned tt) [Printed reset_blocks_message] w.
Proof.
  split; [simpl; lia|].
  apply (revert_reset_rejects_blocks (H := Scripted.collaborators)
           Scripted.fresh Scripted.no_options (Scripted.world [] [])
           (Some 5) None false false).
  simpl; lia.
Defined.

Lemma revert_force_declined_witness :
  let w := Scripted.world ["no"; "y"] [] in
  stdin w = "no" :: ["y"] /\ "no" <> "y" /\
  cli_sim Scripted.fresh Scripted.no_options
    (cmd_revert None None false true false) w =
  mkResult (Returned tt) [Prompted input_str] (Scripted.world ["y"] []).
Proof.
  split; [reflexivity|]. split; [discriminate|].
  apply (revert_force_declined (H := Scripted.collaborators)
           Scripted.fresh Scripted.no_options
           (Scripted.world ["no"; "y"] []) None None false "no" ["y"]);
    [reflexivity | discriminate].
Defined.

Lemma revert_prompt_precedes_reset_check_witness :
  let declined := Scripted.world ["n"] [] in
  let accepted := Scripted.world ["y"] [] in
  let sub := cmd_revert (Some 5) None true true false in
  cli_sim Scripted.fresh Scripted.no_options sub declined =
    mkResult (Returned tt) [Prompted input_str] (Scripted.world [] []) /\
  cli_sim Scripted.fresh Scripted.no_options sub accepted =
    mkResult (Returned tt)
      [Prompted input_str; Printed reset_blocks_message]
      (Scripted.world [] []).
Proof.
  split.
  - apply (proj1 (proj2
      (revert_prompt_precedes_reset_check (H := Scripted.collaborators)
         Scripted.fresh Scripted.no_options (Scripted.world ["n"] [])
         (Some 5) None true)) "n" []);
      [reflexivity | discriminate].
  - apply (proj2 (proj2
      (revert_prompt_precedes_reset_check (H := Scripted.collaborators)
         Scripted.fresh Scripted.no_options (Scripted.world ["y"] [])
         (Some 5) None true)) []);
      [reflexivity | reflexivity | simpl; lia].
Defined.

Lemma stop_exit_code_is_manager_status_witness :
  let script := [Returned (PyObj ()); Returned (PyInt 1)] in
  let w := Scripted.world [] script in
  let r := cli_sim Scripted.fresh Scripted.no_options
             (cmd_stop false true) w in
  outcome r = SystemExit 1 /\
  process_exit_code (outcome r) = exit_byte 1 /\
  (0 <= 1 < 256 -> process_exit_code (outcome r) = 1) /\
  (0 < 1 < 256 -> process_exit_code (outcome r) <> 0).
Proof.
  apply (stop_exit_code_is_manager_status (H := Scripted.collaborators)
           Scripted.fresh Scripted.no_options
           (Scripted.world [] [Returned (PyObj ()); Returned (PyInt 1)])
           false true (PyObj ()) 1 [Returned (PyInt 1)] []);
    reflexivity.
Defined.

(** C4 as stated fails: when the lifecycle manager's stop returns the status
    256, [stop] ends by [sys.exit] with 256 and the exit code of the process
    is 0: it is not the status, and it is zero for a status that is not. *)
Lemma stop_status_256_exits_zero :
  let r := Scripted.run (cmd_stop false false) []
             [Returned (PyObj ()); Returned (PyInt 256)] in
  outcome r = SystemExit 256 /\
  process_exit_code (outcome r) = 0 /\
  process_exit_code (outcome r) <> 256.
Proof. repeat split; vm_compute; congruence. Qed.

Lemma start_discards_manager_status_witness :
  let w := Scripted.world [] [Returned (PyInt 1)] in
  let r := cli_sim Scripted.fresh Scripted.no_options
             (cmd_start true false) w in
  outcome r = Returned tt /\ process_exit_code (outcome r) = 0.
Proof.
  destruct (start_discards_manager_status (H := Scripted.collaborators)
              Scripted.fresh Scripted.no_options
              (Scripted.world [] [Returned (PyInt 1)])
              true false (PyInt 1) [] eq_refl) as (Hret & Hcode & _).
  exact (conj Hret Hcode).
Defined.

(** C6 as stated fails: farm -b 0 forwards the block count 0, which is not
    positive. *)
Lemma farm_forwards_zero_blocks :
  forwarded farm_blocks
    (events (Scripted.run (cmd_farm (Some 0) false None) [] [])) =
  [[PyInt 0; PyBool true; PyStr ""]] /\
  ~ 0 < 0.
Proof. split; [vm_compute; reflexivity | lia]. Qed.

(** ** Runs for the further properties *)

Lemma create_forwards_to_wizard_witness :
  let r := Scripted.run
             (cmd_create None (Some "xch1reward") None (Some "abandon")
                (Some true) false true) ["1"; "later"]
             [Raised (CollaboratorError "wizard")] in
  truthy_int None && truthy_str (Some "abandon") = false /\
  events r =
    [Printed (directory_banner Scripted.no_options);
     Called (call_async_config_wizard (session_root Scripted.no_options)
               None (Some "xch1reward") None (Some "abandon") (Some true)
               false false)] /\
  outcome r = Raised (CollaboratorError "wizard") /\
  final r = Scripted.world ["later"] [].
Proof.
  split; [reflexivity|].
  apply (create_forwards_to_wizard (H := Scripted.collaborators)
           Scripted.fresh Scripted.no_options
           (Scripted.world ["1"; "later"]
              [Raised (CollaboratorError "wizard")])
           None (Some "xch1reward") None (Some "abandon") (Some true)
           false true).
  reflexivity.
Defined.

Lemma revert_forwards_to_harness_witness :
  let r := Scripted.run (cmd_revert (Some 5) None false true true) ["n"] [] in
  true && negb true = false /\
  false && negb (Z.eqb (default 1 (Some 5)) 1) = false /\
  events r =
    [Called (call_execute_with_simulator
               (session_port Scripted.no_options)
               (session_root Scripted.no_options) revert_block_height true
               [PyInt 5; PyInt 1; PyBool false; PyBool true])] /\
  outcome r = Returned tt /\
  final r = Scripted.world ["n"] [].
Proof.
  split; [reflexivity|]. split; [reflexivity|].
  apply (revert_forwards_to_harness (H := Scripted.collaborators)
           Scripted.fresh Scripted.no_options (Scripted.world ["n"] [])
           (Some 5) None false true true);
    reflexivity.
Defined.

Lemma revert_confirmed_calls_harness_witness :
  let w := Scripted.world ["y"; "more"] [] in
  let r := cli_sim Scripted.fresh Scripted.no_options
             (cmd_revert None (Some 2) true true false) w in
  stdin w = "y" :: ["more"] /\
  true && negb (Z.eqb (default 1 None) 1) = false /\
  events r =
    [Prompted input_str;
     Called (call_execute_with_simulator
               (session_port Scripted.no_options)
               (session_root Scripted.no_options) revert_block_height true
               [PyInt 1; PyInt 2; PyBool true; PyBool true])] /\
  outcome r = Returned tt /\
  final r = Scripted.world ["more"] [].
Proof.
  split; [reflexivity|]. split; [reflexivity|].
  apply (revert_confirmed_calls_harness (H := Scripted.collaborators)
           Scripted.fresh Scripted.no_options
           (Scripted.world ["y"; "more"] []) None (Some 2) true ["more"]);
    reflexivity.
Defined.

Lemma revert_prompt_at_end_of_input_witness :
  let w := Scripted.world [] [] in
  let r := cli_sim Scripted.fresh Scripted.no_options
             (cmd_revert None None false true false) w in
  stdin w = [] /\
  r = mkResult (Raised EOFError) [Prompted input_str] w /\
  process_exit_code (outcome r) = 1.
Proof.
  split; [reflexivity|].
  apply (revert_prompt_at_end_of_input (H := Scripted.collaborators)
           Scripted.fresh Scripted.no_options (Scripted.world [] [])
           None None false).
  reflexivity.
Defined.

Lemma command_without_session_fails_witness :
  let d : gmap string (pyval string unit) := {["rpc_port" := PyInt 8000]} in
  is_revert (cmd_farm (Some 3) false None) = false /\
  d !! "root_path" = None /\
  exists key,
    d !! key = None /\
    run_subcommand (mkContext (Some d)) (cmd_farm (Some 3) false None)
      (Scripted.world [] []) =
    mkResult (Raised (KeyError key)) [] (Scripted.world [] []) /\
    (key = "rpc_port" \/ key = "root_path").
Proof.
  split; [reflexivity|]. split; [reflexivity|].
  apply (command_without_session_fails (H := Scripted.collaborators)
           {["rpc_port" := PyInt 8000]} (cmd_farm (Some 3) false None)
           (Scripted.world [] []));
    reflexivity.
Defined.

Lemma revert_rejects_before_context_witness :
  7 <> 1 /\
  false && negb false = false /\
  revert_cmd Scripted.fresh 7 1 true false false (Scripted.world [] []) =
  mkResult (Returned tt) [Printed reset_blocks_message]
    (Scripted.world [] []).
Proof.
  split; [lia|]. split; [reflexivity|].
  apply (revert_rejects_before_context (H := Scripted.collaborators)
           Scripted.fresh (Scripted.world [] []) 7 1 false false);
    [lia | reflexivity].
Defined.

Lemma no_call_without_root_path_witness :
  let d : gmap string (pyval string unit) := ∅ in
  d !! "root_path" = None /\
  calls (events (run_subcommand (mkContext (Some d))
                   (cmd_revert None None false true false)
                   (Scripted.world ["y"] []))) = [].
Proof.
  split; [reflexivity|].
  apply (no_call_without_root_path (H := Scripted.collaborators) ∅
           (cmd_revert None None false true false)
           (Scripted.world ["y"] [])).
  reflexivity.
Defined.

Lemma stop_without_config_witness :
  let script := [Raised (CollaboratorError "ValueError"); Returned (PyInt 0)] in
  let w := Scripted.world [] script in
  let r := cli_sim Scripted.fresh Scripted.no_options
             (cmd_stop true false) w in
  r = mkResult (Raised (CollaboratorError "ValueError"))
        [Called (call_load_config (session_root Scripted.no_options)
                   "config.yaml")]
        (Scripted.world [] [Returned (PyInt 0)]) /\
  lifecycle_groups (events r) = [] /\
  process_exit_code (outcome r) = 1.
Proof.
  apply (stop_without_config (H := Scripted.collaborators)
           Scripted.fresh Scripted.no_options
           (Scripted.world []
              [Raised (CollaboratorError "ValueError"); Returned (PyInt 0)])
           true false (CollaboratorError "ValueError")
           [Returned (PyInt 0)]).
  reflexivity.
Defined.

Lemma stop_passes_loaded_config_witness :
  let script := [Returned (PyObj ()); Raised (CollaboratorError "daemon")] in
  calls (events (cli_sim Scripted.fresh Scripted.no_options
                   (cmd_stop true true) (Scripted.world [] script))) =
  [call_load_config (session_root Scripted.no_options) "config.yaml";
   call_async_stop (session_root Scripted.no_options) (PyObj ())
     ["simulator"; "wallet"] true].
Proof.
  apply (stop_passes_loaded_config (H := Scripted.collaborators)
           Scripted.fresh Scripted.no_options
           (Scripted.world []
              [Returned (PyObj ()); Raised (CollaboratorError "daemon")])
           true true (PyObj ()) [Raised (CollaboratorError "daemon")]).
  reflexivity.
Defined.

Lemma sim_cmd_keeps_other_keys_witness :
  let ctx := @mkContext Scripted.collaborators
               (Some {["theme" := PyStr "dark"]}) in
  "theme" <> "root_path" /\ "theme" <> "sim_name" /\ "theme" <> "rpc_port" /\
  exists d,
    outcome (sim_cmd ctx (Some 8000) "/tmp/sim" "test"
               (Scripted.world [] [])) = Returned (mkContext (Some d)) /\
    d !! "theme" = Some (PyStr "dark").
Proof.
  split; [discriminate|]. split; [discriminate|]. split; [discriminate|].
  destruct (sim_cmd_keeps_other_keys (H := Scripted.collaborators)
              (@mkContext Scripted.collaborators
                 (Some {["theme" := PyStr "dark"]}))
              (Some 8000) "/tmp/sim" "test" (Scripted.world [] []) "theme")
    as (d & Hout & Hd); [discriminate | discriminate | discriminate |].
  exists d. split; [exact Hout|]. rewrite Hd. reflexivity.
Defined.

Lemma harness_command_single_attempt_witness :
  let sub := cmd_autofarm choice_off in
  let w := Scripted.world [] [Raised (CollaboratorError "ConnectionRefused")] in
  is_revert sub = false /\
  command_action sub = Some set_auto_farm /\
  exists args,
    let c := call_execute_with_simulator
               (session_port Scripted.no_options)
               (session_root Scripted.no_options) set_auto_farm true args in
    let r := cli_sim Scripted.fresh Scripted.no_options sub w in
    events r = [Called c] /\
    outcome r = discard (collaborate c (ext w)).1 /\
    final r = mkWorld (stdin w) (collaborate c (ext w)).2.
Proof.
  split; [reflexivity|]. split; [reflexivity|].
  apply (harness_command_single_attempt (H := Scripted.collaborators)
           Scripted.fresh Scripted.no_options (cmd_autofarm choice_off)
           (Scripted.world []
              [Raised (CollaboratorError "ConnectionRefused")])
           set_auto_farm);
    reflexivity.
Defined.

Lemma stop_manager_failure_witness :
  let script := [Returned (PyObj ()); Raised (CollaboratorError "daemon")] in
  let r := cli_sim Scripted.fresh Scripted.no_options (cmd_stop false false)
             (Scripted.world [] script) in
  outcome r = Raised (CollaboratorError "daemon") /\
  length (calls (events r)) = 2%nat /\
  final r = Scripted.world [] [] /\
  process_exit_code (outcome r) = 1.
Proof.
  apply (stop_manager_failure (H := Scripted.collaborators)
           Scripted.fresh Scripted.no_options
           (Scripted.world []
              [Returned (PyObj ()); Raised (CollaboratorError "daemon")])
           false false (PyObj ()) (CollaboratorError "daemon")
           [Raised (CollaboratorError "daemon")] []);
    reflexivity.
Defined.

Lemma local_abort_exits_zero_witness :
  let sub := cmd_create (Some 77) None None (Some "abandon") None false
               false in
  let w := Scripted.world ["unread"] [] in
  calls (events (cli_sim Scripted.fresh Scripted.no_options sub w)) = [] /\
  stdin w <> [] /\
  outcome (cli_sim Scripted.fresh Scripted.no_options sub w) = Returned tt /\
  process_exit_code
    (outcome (cli_sim Scripted.fresh Scripted.no_options sub w)) = 0.
Proof.
  split; [vm_compute; reflexivity|]. split; [discriminate|].
  apply (local_abort_exits_zero (H := Scripted.collaborators)
           Scripted.fresh Scripted.no_options
           (cmd_create (Some 77) None None (Some "abandon") None false false)
           (Scripted.world ["unread"] []));
    [vm_compute; reflexivity | discriminate].
Defined.

Lemma prompt_only_for_forced_revert_witness :
  let sub := cmd_revert (Some 2) None false true false in
  let w := Scripted.world ["y"; "later"] [] in
  let r := cli_sim Scripted.fresh Scripted.no_options sub w in
  is_create sub = false /\
  existsb is_prompt (events r) = true /\
  stdin (final r) = ["later"].
Proof.
  split; [reflexivity|].
  apply (prompt_only_for_forced_revert (H := Scripted.collaborators)
           Scripted.fresh Scripted.no_options
           (cmd_revert (Some 2) None false true false)
           (Scripted.world ["y"; "later"] [])).
  reflexivity.
Defined.

(** The paths of the test double agree with pathlib on these joins. *)
Lemma scripted_paths_follow_pathlib :
  Scripted.posix_join (Scripted.posix_path "/r") "main" = "/r/main" /\
  Scripted.posix_join (Scripted.posix_path "/r") "/abs" = "/abs" /\
  Scripted.posix_join (Scripted.posix_path "/r") "a/" = "/r/a" /\
  Scripted.posix_join (Scripted.posix_path "/r") "" = "/r" /\
  Scripted.posix_join (Scripted.posix_path "/r") "./a//b" = "/r/a/b" /\
  Scripted.posix_join (Scripted.posix_path "/r") ".." = "/r/.." /\
  Scripted.posix_join (Scripted.posix_path "r/") "x" = "r/x" /\
  Scripted.posix_join (Scripted.posix_path "//r") "x" = "//r/x" /\
  Scripted.posix_join (Scripted.posix_path "///r") "x" = "/r/x" /\
  Scripted.posix_join (Scripted.posix_path "") "x" = "x" /\
  Scripted.posix_join (Scripted.posix_path "") "" = "." /\
  Scripted.posix_join (Scripted.posix_path "/") "x" = "/x" /\
  Scripted.posix_join (Scripted.posix_path "/r") "//x" = "//x".
Proof. repeat split; vm_compute; reflexivity. Qed.
